(** * nanoFramework.Hardware.Esp32 — HighResTimer native call dispatcher

    Shallow embedding of the generated marshalling shims of
    [nanoFramework_Hardware_Esp32_nanoFramework_Hardware_Esp32_HighResTimer_mshl.cpp]
    and of the collaborators they call, followed by the properties of the
    dispatcher contract.

    Layout:
    - [HRESULT] and the runtime's control-flow macros, as a small
      state-and-jump monad over the frame of one shim;
    - the six shims, one definition per C++ function, over two interfaces:
      the interop runtime ([InteropRuntime]) and the timer driver
      ([HighResTimer]);
    - an instance of both interfaces (stack frame, association table, timer
      state machine);
    - the theorems. *)

From stdpp Require Import base numbers option list gmap.

Local Open Scope Z_scope.

(** ** Status codes *)

(** [HRESULT] is a signed 32-bit integer; only its sign is inspected by the
    shims. *)
Definition HRESULT := Z.

Definition S_OK : HRESULT := 0.

(** Modelled from the spec: the runtime header that defines [FAILED] is not
    part of the sources.  A status is a failure when it is negative:
    [#define FAILED(Status) ((HRESULT)(Status) < 0)]. *)
Definition FAILED (Status : HRESULT) : bool := Status <? 0.

(** ** Pointers to managed heap blocks *)

(** A [CLR_RT_HeapBlock*] is an address; address 0 is the null pointer. *)
Definition HeapBlockPtr := N.

Definition NULL : HeapBlockPtr := 0%N.

(** ** The collaborators of the shims *)

(** The interop runtime: what the shims use of [CLR_RT_StackFrame].  The
    stack frame type and these four functions are declared by the runtime
    headers; the shims are embedded over any implementation of them.

    [Interop_Marshal_UINT64 stack paramIndex] returns the status together
    with the value left in the by-reference [param] (meaningful when the
    status is not a failure).  The [SetResult_*] functions return the
    updated stack frame. *)
Class InteropRuntime (CLR_RT_StackFrame : Type) := {
  Interop_Marshal_RetrieveManagedObject : CLR_RT_StackFrame -> HeapBlockPtr;
  Interop_Marshal_UINT64 : CLR_RT_StackFrame -> N -> HRESULT * Z;
  SetResult_INT32 : CLR_RT_StackFrame -> Z -> CLR_RT_StackFrame;
  SetResult_UINT64 : CLR_RT_StackFrame -> Z -> CLR_RT_StackFrame
}.

(** The error code stored by [FAULT_ON_NULL]; its numeric value is declared
    by the runtime headers. *)
Class RuntimeErrors := {
  CLR_E_NULL_REFERENCE : HRESULT
}.

(** The Timer Resource Driver, [class HighResTimer].  Each operation takes
    [HRESULT &hr] by reference: the model passes the value of [hr] at the
    call and gets the value of [hr] at the return, next to the driver state
    [D] that the operation may change. *)
Module HighResTimer.
Class Driver (D : Type) := {
  NativeEspTimerCreate : HeapBlockPtr -> HRESULT -> D -> Z * HRESULT * D;
  NativeEspTimerDispose : HeapBlockPtr -> HRESULT -> D -> HRESULT * D;
  NativeStop : HeapBlockPtr -> HRESULT -> D -> HRESULT * D;
  NativeStartOneShot : HeapBlockPtr -> Z -> HRESULT -> D -> HRESULT * D;
  NativeStartPeriodic : HeapBlockPtr -> Z -> HRESULT -> D -> HRESULT * D;
  NativeGetCurrent : HRESULT -> D -> Z * HRESULT * D
}.
End HighResTimer.

(** ** Calls made by a shim *)

(** Every call a shim makes to a collaborator, in program order.  The list
    of calls is a ghost component of the frame: it lets the theorems say
    which collaborator was reached and with which arguments.  A driver call
    records the value of the by-reference [hr] at the call ([hr_in]) and at
    the return ([hr_out]). *)
Inductive Call :=
  | Call_RetrieveManagedObject
  | Call_Marshal_UINT64 (paramIndex : N)
  | Call_SetResult_INT32 (value : Z)
  | Call_SetResult_UINT64 (value : Z)
  | Call_NativeEspTimerCreate (pMngObj : HeapBlockPtr) (hr_in hr_out : HRESULT)
  | Call_NativeEspTimerDispose (pMngObj : HeapBlockPtr) (hr_in hr_out : HRESULT)
  | Call_NativeStop (pMngObj : HeapBlockPtr) (hr_in hr_out : HRESULT)
  | Call_NativeStartOneShot (pMngObj : HeapBlockPtr) (param0 : Z) (hr_in hr_out : HRESULT)
  | Call_NativeStartPeriodic (pMngObj : HeapBlockPtr) (param0 : Z) (hr_in hr_out : HRESULT)
  | Call_NativeGetCurrent (hr_in hr_out : HRESULT).

(** The value of [hr] at the call and at the return of a driver call. *)
Definition driver_call_hr (c : Call) : option (HRESULT * HRESULT) :=
  match c with
  | Call_NativeEspTimerCreate _ i o | Call_NativeEspTimerDispose _ i o
  | Call_NativeStop _ i o | Call_NativeStartOneShot _ _ i o
  | Call_NativeStartPeriodic _ _ i o | Call_NativeGetCurrent i o => Some (i, o)
  | _ => None
  end.

Definition is_driver_call (c : Call) : bool :=
  match driver_call_hr c with
  | Some _ => true
  | None => false
  end.

Definition is_set_result (c : Call) : bool :=
  match c with
  | Call_SetResult_INT32 _ | Call_SetResult_UINT64 _ => true
  | _ => false
  end.

Definition is_marshal (c : Call) : bool :=
  match c with
  | Call_Marshal_UINT64 _ => true
  | _ => false
  end.

Definition is_retrieve (c : Call) : bool :=
  match c with
  | Call_RetrieveManagedObject => true
  | _ => false
  end.

(** The operations of the Timer Resource Driver. *)
Inductive DriverOp :=
  | OpEspTimerCreate
  | OpEspTimerDispose
  | OpStop
  | OpStartOneShot
  | OpStartPeriodic
  | OpGetCurrent.

(** The driver operation a call invokes, if it is a driver call. *)
Definition call_operation (c : Call) : option DriverOp :=
  match c with
  | Call_NativeEspTimerCreate _ _ _ => Some OpEspTimerCreate
  | Call_NativeEspTimerDispose _ _ _ => Some OpEspTimerDispose
  | Call_NativeStop _ _ _ => Some OpStop
  | Call_NativeStartOneShot _ _ _ _ => Some OpStartOneShot
  | Call_NativeStartPeriodic _ _ _ _ => Some OpStartPeriodic
  | Call_NativeGetCurrent _ _ => Some OpGetCurrent
  | _ => None
  end.

(** The managed object handed to the driver by a call. *)
Definition call_object (c : Call) : option HeapBlockPtr :=
  match c with
  | Call_NativeEspTimerCreate p _ _ | Call_NativeEspTimerDispose p _ _
  | Call_NativeStop p _ _ | Call_NativeStartOneShot p _ _ _
  | Call_NativeStartPeriodic p _ _ _ => Some p
  | _ => None
  end.

(** The interval handed to the driver by a call. *)
Definition call_interval (c : Call) : option Z :=
  match c with
  | Call_NativeStartOneShot _ v _ _ | Call_NativeStartPeriodic _ v _ _ => Some v
  | _ => None
  end.

(** The argument position a call decodes. *)
Definition call_index (c : Call) : option N :=
  match c with
  | Call_Marshal_UINT64 i => Some i
  | _ => None
  end.

(** ** The frame of one shim and the macro layer *)

Section Frame.
Context {CLR_RT_StackFrame D : Type}.

(** The frame of a running shim: the local [hr] ([None] until it is
    assigned), the stack frame passed by reference, the driver state, and
    the calls made so far. *)
Record Frame := mkFrame {
  hr : option HRESULT;
  stack : CLR_RT_StackFrame;
  driver : D;
  calls : list Call
}.

(** What the managed caller gets back: the returned status ([None] would
    be an indeterminate value), the stack frame and driver state left
    behind, and the calls that were made. *)
Record Outcome := mkOutcome {
  status : option HRESULT;
  stack_out : CLR_RT_StackFrame;
  driver_out : D;
  calls_out : list Call
}.

(** Control after a statement: fall through with a value, jump to the
    [nanoCLR_Cleanup] label, or an undefined read of an unassigned
    local. *)
Inductive Flow (A : Type) :=
  | Next (a : A)
  | Leave
  | Undefined.
Global Arguments Next {A} a.
Global Arguments Leave {A}.
Global Arguments Undefined {A}.

Definition Shim (A : Type) : Type := Frame -> Flow A * Frame.

Definition shim_ret {A} (a : A) : Shim A := fun fr => (Next a, fr).

Definition shim_bind {A B} (f : A -> Shim B) (m : Shim A) : Shim B :=
  fun fr =>
    match m fr with
    | (Next a, fr') => f a fr'
    | (Leave, fr') => (Leave, fr')
    | (Undefined, fr') => (Undefined, fr')
    end.

Global Instance Shim_ret : MRet Shim := @shim_ret.
Global Instance Shim_bind : MBind Shim := @shim_bind.

Definition set_hr (h : option HRESULT) (fr : Frame) : Frame :=
  mkFrame h (stack fr) (driver fr) (calls fr).

Definition set_stack (s : CLR_RT_StackFrame) (fr : Frame) : Frame :=
  mkFrame (hr fr) s (driver fr) (calls fr).

Definition set_driver (d : D) (fr : Frame) : Frame :=
  mkFrame (hr fr) (stack fr) d (calls fr).

Definition record (c : Call) (fr : Frame) : Frame :=
  mkFrame (hr fr) (stack fr) (driver fr) (calls fr ++ [c]).

(** The control-flow macros below are defined by a runtime header that is
    not part of the sources; each is modelled from the dispatcher contract
    of the spec (a failure is stored in the status, propagated unchanged,
    and short-circuits the remaining steps) and quotes the header's
    definition. *)

(** Modelled from the spec: [NANOCLR_HEADER] (runtime header), the
    declaration of the status local, not yet assigned:
    [#define NANOCLR_HEADER() HRESULT hr]. *)
Definition NANOCLR_HEADER : Shim unit :=
  fun fr => (Next tt, set_hr None fr).

(** The assignment [hr = h;]. *)
Definition assign_hr (h : HRESULT) : Shim unit :=
  fun fr => (Next tt, set_hr (Some h) fr).

(** The expression [hr]. *)
Definition read_hr : Shim HRESULT :=
  fun fr =>
    match hr fr with
    | Some h => (Next h, fr)
    | None => (Undefined, fr)
    end.

(** Modelled from the spec: [NANOCLR_LEAVE] (runtime header), the jump that
    short-circuits the remaining steps:
    [#define NANOCLR_LEAVE() goto nanoCLR_Cleanup]. *)
Definition NANOCLR_LEAVE {A} : Shim A := fun fr => (Leave, fr).

(** Modelled from the spec: [NANOCLR_SET_AND_LEAVE] (runtime header):
    [#define NANOCLR_SET_AND_LEAVE(expr) { hr = (expr); NANOCLR_LEAVE(); }]. *)
Definition NANOCLR_SET_AND_LEAVE {A} (expr : HRESULT) : Shim A :=
  assign_hr expr ;; NANOCLR_LEAVE.

(** Modelled from the spec: [NANOCLR_CHECK_HRESULT] (runtime header); the
    status of a step is stored in [hr], and a failure ends the run:
    [#define NANOCLR_CHECK_HRESULT(expr) { if(FAILED(hr = (expr))) NANOCLR_LEAVE(); }]. *)
Definition NANOCLR_CHECK_HRESULT (expr : Shim HRESULT) : Shim unit :=
  h ← expr;
  assign_hr h ;;
  if FAILED h then NANOCLR_LEAVE else mret tt.

(** Modelled from the spec: [FAULT_ON_NULL] (runtime header); an absent
    managed object fails fast with the null-reference error:
    [#define FAULT_ON_NULL(ptr) if(!(ptr)) NANOCLR_SET_AND_LEAVE(CLR_E_NULL_REFERENCE)]. *)
Definition FAULT_ON_NULL `{RuntimeErrors} (ptr : HeapBlockPtr) : Shim unit :=
  if (ptr =? NULL)%N then NANOCLR_SET_AND_LEAVE CLR_E_NULL_REFERENCE
  else mret tt.

(** Modelled from the spec: [NANOCLR_NOCLEANUP] (runtime header), the end
    of a function body, where the final status is returned:
    [#define NANOCLR_CLEANUP() hr = S_OK; nanoCLR_Cleanup:],
    [#define NANOCLR_CLEANUP_END() return hr],
    [#define NANOCLR_NOCLEANUP() NANOCLR_CLEANUP(); NANOCLR_CLEANUP_END()].
    A body that falls through has [hr] set to [S_OK]; a body that left
    returns the [hr] it left with.  The shim starts on the caller's stack
    frame and driver state, with no call made yet. *)
Definition NANOCLR_NOCLEANUP (body : Shim unit)
    (stack0 : CLR_RT_StackFrame) (driver0 : D) : Outcome :=
  match body (mkFrame None stack0 driver0 []) with
  | (Next _, fr) => mkOutcome (Some S_OK) (stack fr) (driver fr) (calls fr)
  | (Leave, fr) => mkOutcome (hr fr) (stack fr) (driver fr) (calls fr)
  | (Undefined, fr) => mkOutcome None (stack fr) (driver fr) (calls fr)
  end.

(** *** Calls to the interop runtime *)

Context `{InteropRuntime CLR_RT_StackFrame}.

Definition call_Interop_Marshal_RetrieveManagedObject : Shim HeapBlockPtr :=
  fun fr =>
    (Next (Interop_Marshal_RetrieveManagedObject (stack fr)),
     record Call_RetrieveManagedObject fr).

(** Returns the status and the value left in [param]. *)
Definition call_Interop_Marshal_UINT64 (paramIndex : N) : Shim (HRESULT * Z) :=
  fun fr =>
    (Next (Interop_Marshal_UINT64 (stack fr) paramIndex),
     record (Call_Marshal_UINT64 paramIndex) fr).

Definition call_SetResult_INT32 (value : Z) : Shim unit :=
  fun fr =>
    (Next tt,
     record (Call_SetResult_INT32 value)
       (set_stack (SetResult_INT32 (stack fr) value) fr)).

Definition call_SetResult_UINT64 (value : Z) : Shim unit :=
  fun fr =>
    (Next tt,
     record (Call_SetResult_UINT64 value)
       (set_stack (SetResult_UINT64 (stack fr) value) fr)).

(** *** Calls to the driver, with [hr] passed by reference *)

Context `{HighResTimer.Driver D}.

(** A driver operation that returns a value: [hr] must hold a value to be
    handed over; the operation's [hr] is stored back. *)
Definition call_driver_value (c : HRESULT -> HRESULT -> Call)
    (op : HRESULT -> D -> Z * HRESULT * D) : Shim Z :=
  fun fr =>
    match hr fr with
    | None => (Undefined, fr)
    | Some h =>
        let '(retVal, h', d') := op h (driver fr) in
        (Next retVal, record (c h h') (set_driver d' (set_hr (Some h') fr)))
    end.

(** A driver operation that returns [void]. *)
Definition call_driver_void (c : HRESULT -> HRESULT -> Call)
    (op : HRESULT -> D -> HRESULT * D) : Shim unit :=
  fun fr =>
    match hr fr with
    | None => (Undefined, fr)
    | Some h =>
        let '(h', d') := op h (driver fr) in
        (Next tt, record (c h h') (set_driver d' (set_hr (Some h') fr)))
    end.

(** ** The shims *)

Context `{RuntimeErrors}.

(** [NativeEspTimerCreate___I4] *)
Definition NativeEspTimerCreate___I4 : CLR_RT_StackFrame -> D -> Outcome :=
  NANOCLR_NOCLEANUP (
    NANOCLR_HEADER ;; assign_hr S_OK ;;
    pMngObj ← call_Interop_Marshal_RetrieveManagedObject;
    FAULT_ON_NULL pMngObj ;;
    retVal ← call_driver_value (Call_NativeEspTimerCreate pMngObj)
               (HighResTimer.NativeEspTimerCreate pMngObj);
    NANOCLR_CHECK_HRESULT read_hr ;;
    call_SetResult_INT32 retVal).

(** [NativeEspTimerDispose___VOID] *)
Definition NativeEspTimerDispose___VOID : CLR_RT_StackFrame -> D -> Outcome :=
  NANOCLR_NOCLEANUP (
    NANOCLR_HEADER ;; assign_hr S_OK ;;
    pMngObj ← call_Interop_Marshal_RetrieveManagedObject;
    FAULT_ON_NULL pMngObj ;;
    call_driver_void (Call_NativeEspTimerDispose pMngObj)
      (HighResTimer.NativeEspTimerDispose pMngObj) ;;
    NANOCLR_CHECK_HRESULT read_hr).

(** [NativeStop___VOID] *)
Definition NativeStop___VOID : CLR_RT_StackFrame -> D -> Outcome :=
  NANOCLR_NOCLEANUP (
    NANOCLR_HEADER ;; assign_hr S_OK ;;
    pMngObj ← call_Interop_Marshal_RetrieveManagedObject;
    FAULT_ON_NULL pMngObj ;;
    call_driver_void (Call_NativeStop pMngObj)
      (HighResTimer.NativeStop pMngObj) ;;
    NANOCLR_CHECK_HRESULT read_hr).

(** [NativeStartOneShot___VOID__U8] *)
Definition NativeStartOneShot___VOID__U8 : CLR_RT_StackFrame -> D -> Outcome :=
  NANOCLR_NOCLEANUP (
    NANOCLR_HEADER ;; assign_hr S_OK ;;
    pMngObj ← call_Interop_Marshal_RetrieveManagedObject;
    FAULT_ON_NULL pMngObj ;;
    '(h, param0) ← call_Interop_Marshal_UINT64 1;
    NANOCLR_CHECK_HRESULT (mret h) ;;
    call_driver_void (Call_NativeStartOneShot pMngObj param0)
      (HighResTimer.NativeStartOneShot pMngObj param0) ;;
    NANOCLR_CHECK_HRESULT read_hr).

(** [NativeStartPeriodic___VOID__U8] *)
Definition NativeStartPeriodic___VOID__U8 : CLR_RT_StackFrame -> D -> Outcome :=
  NANOCLR_NOCLEANUP (
    NANOCLR_HEADER ;; assign_hr S_OK ;;
    pMngObj ← call_Interop_Marshal_RetrieveManagedObject;
    FAULT_ON_NULL pMngObj ;;
    '(h, param0) ← call_Interop_Marshal_UINT64 1;
    NANOCLR_CHECK_HRESULT (mret h) ;;
    call_driver_void (Call_NativeStartPeriodic pMngObj param0)
      (HighResTimer.NativeStartPeriodic pMngObj param0) ;;
    NANOCLR_CHECK_HRESULT read_hr).

(** [NativeGetCurrent___STATIC__U8] *)
Definition NativeGetCurrent___STATIC__U8 : CLR_RT_StackFrame -> D -> Outcome :=
  NANOCLR_NOCLEANUP (
    NANOCLR_HEADER ;; assign_hr S_OK ;;
    retVal ← call_driver_value Call_NativeGetCurrent
               HighResTimer.NativeGetCurrent;
    NANOCLR_CHECK_HRESULT read_hr ;;
    call_SetResult_UINT64 retVal).

(** *** Groups of shims *)

(** The operations that take the managed object as [this]. *)
Definition instance_shims : list (CLR_RT_StackFrame -> D -> Outcome) :=
  [NativeEspTimerCreate___I4; NativeEspTimerDispose___VOID; NativeStop___VOID;
   NativeStartOneShot___VOID__U8; NativeStartPeriodic___VOID__U8].

(** The operations that decode an interval argument. *)
Definition start_shims : list (CLR_RT_StackFrame -> D -> Outcome) :=
  [NativeStartOneShot___VOID__U8; NativeStartPeriodic___VOID__U8].

(** The operations declared [___VOID]. *)
Definition void_shims : list (CLR_RT_StackFrame -> D -> Outcome) :=
  [NativeEspTimerDispose___VOID; NativeStop___VOID;
   NativeStartOneShot___VOID__U8; NativeStartPeriodic___VOID__U8].

Definition all_shims : list (CLR_RT_StackFrame -> D -> Outcome) :=
  NativeGetCurrent___STATIC__U8 :: instance_shims.

(** *** Observations on an outcome *)

(** The result slot was written: a [SetResult_*] call was made. *)
Definition writes_result (out : Outcome) : bool :=
  existsb is_set_result (calls_out out).

(** A Timer Resource Driver operation was invoked. *)
Definition invokes_driver (out : Outcome) : bool :=
  existsb is_driver_call (calls_out out).

(** An argument was decoded. *)
Definition decodes_argument (out : Outcome) : bool :=
  existsb is_marshal (calls_out out).

(** *** The dispatcher contract, as the spec words it *)

(** Status of the null check on the managed object reference. *)
Definition null_check (pMngObj : HeapBlockPtr) : HRESULT :=
  if (pMngObj =? NULL)%N then CLR_E_NULL_REFERENCE else S_OK.

(** The steps of an operation, each with the call it makes and the status
    it produces, are run in order; the first failing step ends the run and
    its status is the one returned; with no failing step the status is
    success. *)
Fixpoint spec_first_failure (steps : list (Call * HRESULT)) : list Call * HRESULT :=
  match steps with
  | [] => ([], S_OK)
  | (c, h) :: rest =>
      if FAILED h then ([c], h)
      else let '(cs, h') := spec_first_failure rest in (c :: cs, h')
  end.

Definition spec_dispatch (steps : list (Call * HRESULT)) : list Call * option HRESULT :=
  let '(cs, h) := spec_first_failure steps in (cs, Some h).

(** What a run of a shim shows of its steps: the calls and the status. *)
Definition observed (out : Outcome) : list Call * option HRESULT :=
  (calls_out out, status out).

(** The steps of each operation: resolve the managed object reference,
    decode each declared argument, invoke the driver operation, encode the
    return value (encoding always succeeds).  The driver operation is
    handed the [hr] left by the step before it: [S_OK] from the
    initialisation, or the status of the decode. *)
Definition step_resolve (stack0 : CLR_RT_StackFrame) : Call * HRESULT :=
  (Call_RetrieveManagedObject,
   null_check (Interop_Marshal_RetrieveManagedObject stack0)).

Definition step_decode (stack0 : CLR_RT_StackFrame) : Call * HRESULT :=
  (Call_Marshal_UINT64 1, fst (Interop_Marshal_UINT64 stack0 1)).

Definition steps_NativeEspTimerCreate (stack0 : CLR_RT_StackFrame) (d : D)
    : list (Call * HRESULT) :=
  let p := Interop_Marshal_RetrieveManagedObject stack0 in
  let '(retVal, h, _) := HighResTimer.NativeEspTimerCreate p S_OK d in
  [step_resolve stack0;
   (Call_NativeEspTimerCreate p S_OK h, h);
   (Call_SetResult_INT32 retVal, S_OK)].

Definition steps_NativeEspTimerDispose (stack0 : CLR_RT_StackFrame) (d : D)
    : list (Call * HRESULT) :=
  let p := Interop_Marshal_RetrieveManagedObject stack0 in
  let '(h, _) := HighResTimer.NativeEspTimerDispose p S_OK d in
  [step_resolve stack0; (Call_NativeEspTimerDispose p S_OK h, h)].

Definition steps_NativeStop (stack0 : CLR_RT_StackFrame) (d : D)
    : list (Call * HRESULT) :=
  let p := Interop_Marshal_RetrieveManagedObject stack0 in
  let '(h, _) := HighResTimer.NativeStop p S_OK d in
  [step_resolve stack0; (Call_NativeStop p S_OK h, h)].

Definition steps_NativeStartOneShot (stack0 : CLR_RT_StackFrame) (d : D)
    : list (Call * HRESULT) :=
  let p := Interop_Marshal_RetrieveManagedObject stack0 in
  let '(hm, param0) := Interop_Marshal_UINT64 stack0 1 in
  let '(h, _) := HighResTimer.NativeStartOneShot p param0 hm d in
  [step_resolve stack0; step_decode stack0;
   (Call_NativeStartOneShot p param0 hm h, h)].

Definition steps_NativeStartPeriodic (stack0 : CLR_RT_StackFrame) (d : D)
    : list (Call * HRESULT) :=
  let p := Interop_Marshal_RetrieveManagedObject stack0 in
  let '(hm, param0) := Interop_Marshal_UINT64 stack0 1 in
  let '(h, _) := HighResTimer.NativeStartPeriodic p param0 hm d in
  [step_resolve stack0; step_decode stack0;
   (Call_NativeStartPeriodic p param0 hm h, h)].

Definition steps_NativeGetCurrent (_ : CLR_RT_StackFrame) (d : D)
    : list (Call * HRESULT) :=
  let '(retVal, h, _) := HighResTimer.NativeGetCurrent S_OK d in
  [(Call_NativeGetCurrent S_OK h, h); (Call_SetResult_UINT64 retVal, S_OK)].

(** Each shim with the steps of its operation. *)
Definition dispatch_table
    : list ((CLR_RT_StackFrame -> D -> Outcome) *
            (CLR_RT_StackFrame -> D -> list (Call * HRESULT))) :=
  [(NativeEspTimerCreate___I4, steps_NativeEspTimerCreate);
   (NativeEspTimerDispose___VOID, steps_NativeEspTimerDispose);
   (NativeStop___VOID, steps_NativeStop);
   (NativeStartOneShot___VOID__U8, steps_NativeStartOneShot);
   (NativeStartPeriodic___VOID__U8, steps_NativeStartPeriodic);
   (NativeGetCurrent___STATIC__U8, steps_NativeGetCurrent)].

(** Each shim with the driver operation it is generated for. *)
Definition shim_operations
    : list ((CLR_RT_StackFrame -> D -> Outcome) * DriverOp) :=
  [(NativeEspTimerCreate___I4, OpEspTimerCreate);
   (NativeEspTimerDispose___VOID, OpEspTimerDispose);
   (NativeStop___VOID, OpStop);
   (NativeStartOneShot___VOID__U8, OpStartOneShot);
   (NativeStartPeriodic___VOID__U8, OpStartPeriodic);
   (NativeGetCurrent___STATIC__U8, OpGetCurrent)].

(** The operations that return a value through the result slot. *)
Definition value_shims : list (CLR_RT_StackFrame -> D -> Outcome) :=
  [NativeEspTimerCreate___I4; NativeGetCurrent___STATIC__U8].

(** The number of driver calls of a run. *)
Definition driver_calls (out : Outcome) : nat :=
  length (List.filter is_driver_call (calls_out out)).

End Frame.

(** ** The failure taxonomy *)

(** Modelled from the spec: the closed set of failure kinds of the error
    handling design (the header that declares the runtime's error codes is
    not part of the sources). *)
Inductive FailureKind :=
  | NullReference
  | ArgumentTypeOrRange
  | NotFound
  | InvalidState
  | ResourceExhausted
  | PlatformFault.

(** The [HRESULT] that carries each failure kind.  The numeric values are
    declared outside the sources, so the encoding is a parameter. *)
Class FailureCodes := {
  code : FailureKind -> HRESULT
}.

(** What is assumed of an encoding: every kind is a failure status, and
    two kinds never share a status. *)
Record FailureCodesOk `{FailureCodes} : Prop := {
  code_failed : forall k, FAILED (code k) = true;
  code_inj : forall k1 k2, code k1 = code k2 -> k1 = k2
}.
Global Arguments FailureCodesOk _ : clear implicits.

Global Instance FailureCodes_RuntimeErrors `{FailureCodes} : RuntimeErrors :=
  {| CLR_E_NULL_REFERENCE := code NullReference |}.

(** [MAKE_HRESULT(sev, fac, code)] as a signed 32-bit value. *)
Definition MAKE_HRESULT (sev fac cod : Z) : HRESULT :=
  let u := Z.lor (Z.shiftl sev 31) (Z.lor (Z.shiftl fac 16) cod) mod 2 ^ 32 in
  if u <? 2 ^ 31 then u else u - 2 ^ 32.

(** One encoding, used to run the model on concrete inputs: severity
    "error" and one facility per kind. *)
Definition example_codes : FailureCodes :=
  {| code k :=
       match k with
       | NullReference => MAKE_HRESULT 1 0x2100 0
       | ArgumentTypeOrRange => MAKE_HRESULT 1 0x7D00 0
       | NotFound => MAKE_HRESULT 1 0x1500 0
       | InvalidState => MAKE_HRESULT 1 0x5600 0
       | ResourceExhausted => MAKE_HRESULT 1 0x2A00 0
       | PlatformFault => MAKE_HRESULT 1 0x7F00 0
       end |}.

(** ** A stack frame *)

Module StackModel.

(** Modelled from the spec: an untyped invocation slot, tagged with the
    type of the value it holds (the managed heap block representation is
    not part of the sources). *)
Inductive HeapBlock :=
  | HB_I4 (v : Z)
  | HB_U8 (v : Z)
  | HB_Object (p : HeapBlockPtr).

(** Modelled from the spec: the invocation context of one managed call,
    its argument slots (slot 0 holds the managed object reference of an
    instance method) and its result slot. *)
Record CLR_RT_StackFrame := mkStack {
  m_arguments : list HeapBlock;
  m_result : option HeapBlock
}.

Definition UINT64_MAX : Z := 2 ^ 64 - 1.

(** Modelled from the spec: the managed object reference of the
    invocation, null when absent. *)
Definition RetrieveManagedObject (s : CLR_RT_StackFrame) : HeapBlockPtr :=
  match m_arguments s !! 0%nat with
  | Some (HB_Object p) => p
  | _ => NULL
  end.

(** Modelled from the spec: Typed Argument Marshaller, decoding.  Extracts
    an unsigned 64-bit value from the slot at a zero-based position; fails
    with a type/arity error when the position is out of range or the slot
    does not hold a value of exactly that type; no widening or narrowing
    across signedness. *)
Definition Marshal_UINT64 `{FailureCodes} (s : CLR_RT_StackFrame)
    (paramIndex : N) : HRESULT * Z :=
  match m_arguments s !! N.to_nat paramIndex with
  | Some (HB_U8 v) =>
      if (0 <=? v) && (v <=? UINT64_MAX) then (S_OK, v)
      else (code ArgumentTypeOrRange, 0)
  | _ => (code ArgumentTypeOrRange, 0)
  end.

(** Modelled from the spec: Typed Argument Marshaller, encoding.  Stores a
    native value of a known type into the result slot; always succeeds. *)
Definition SetResult (b : HeapBlock) (s : CLR_RT_StackFrame) : CLR_RT_StackFrame :=
  mkStack (m_arguments s) (Some b).

Global Instance runtime `{FailureCodes} : InteropRuntime CLR_RT_StackFrame := {|
  Interop_Marshal_RetrieveManagedObject := RetrieveManagedObject;
  Interop_Marshal_UINT64 := Marshal_UINT64;
  SetResult_INT32 s v := SetResult (HB_I4 v) s;
  SetResult_UINT64 s v := SetResult (HB_U8 v) s
|}.

End StackModel.

(** ** The Native Object Association Table and the Timer Resource Driver *)

Module TimerModel.

(** Modelled from the spec: the modes of a native timer handle. *)
Inductive Mode := Idle | ArmedOneShot | ArmedPeriodic | Disposed.

Global Instance Mode_eq_dec : EqDecision Mode.
Proof. solve_decision. Defined.

(** Modelled from the spec: the native resource of one hardware timer, the
    platform timer identifier, the current mode and the interval
    configured when armed. *)
Record NativeTimerHandle := mkHandle {
  platform_timer : Z;
  mode : Mode;
  interval : Z
}.

(** Modelled from the spec: the state owned by the Timer Resource Driver
    ([HighResTimer.cpp], the implementation behind the shims, is not part
    of the sources).
    - [table]: the Native Object Association Table, managed object
      reference to native handle;
    - [hw_free]: the finite set of hardware timer slots still available;
    - [hw_released]: the releases of hardware timers performed so far, in
      order (a timer released twice appears twice);
    - [retired]: the handles that reached [Disposed];
    - [time_source]: the free-running counter, [None] when the time source
      is unavailable;
    - [zero_interval_supported]: whether the target accepts an interval of
      0 as an immediate fire (left open by the spec). *)
Record State := mkState {
  table : gmap N NativeTimerHandle;
  hw_free : list Z;
  hw_released : list Z;
  retired : list NativeTimerHandle;
  time_source : option Z;
  zero_interval_supported : bool
}.

Definition set_table (t : gmap N NativeTimerHandle) (d : State) : State :=
  mkState t (hw_free d) (hw_released d) (retired d) (time_source d)
    (zero_interval_supported d).

(** *** Association table *)

(** Modelled from the spec: [lookup(ref)] fails with "native object not
    found" if the reference has no entry. *)
Definition lookup (ref : HeapBlockPtr) (d : State) : FailureKind + NativeTimerHandle :=
  match table d !! ref with
  | Some h => inr h
  | None => inl NotFound
  end.

(** Modelled from the spec: [associate(ref, handle)] fails if the
    reference already has an association.  The spec names no failure kind
    for it; [InvalidState] is used. *)
Definition associate (ref : HeapBlockPtr) (h : NativeTimerHandle) (d : State)
    : FailureKind + State :=
  match table d !! ref with
  | Some _ => inl InvalidState
  | None => inr (set_table (<[ref := h]> (table d)) d)
  end.

(** Modelled from the spec: [remove(ref)] is silently safe if the entry is
    absent. *)
Definition remove (ref : HeapBlockPtr) (d : State) : State :=
  set_table (delete ref (table d)) d.

(** *** Handle state machine *)

(** Modelled from the spec: arming is valid from [Idle] or any armed mode
    and replaces the previous schedule; it fails on a [Disposed] handle,
    and on interval 0 when the target does not support it. *)
Definition arm (m : Mode) (zero_ok : bool) (h : NativeTimerHandle)
    (intervalTicks : Z) : FailureKind + NativeTimerHandle :=
  if decide (mode h = Disposed) then inl InvalidState
  else if (intervalTicks =? 0) && negb zero_ok then inl ArgumentTypeOrRange
  else inr (mkHandle (platform_timer h) m intervalTicks).

(** Modelled from the spec: [Stop] cancels the schedule and returns to
    [Idle]; a no-op success when already [Idle]; invalid on a [Disposed]
    handle. *)
Definition stop (h : NativeTimerHandle) : FailureKind + NativeTimerHandle :=
  if decide (mode h = Disposed) then inl InvalidState
  else inr (mkHandle (platform_timer h) Idle (interval h)).

(** Modelled from the spec: releasing the hardware timer of a handle
    makes its slot available again. *)
Definition release (h : NativeTimerHandle) (d : State) : State :=
  mkState (table d) (hw_free d ++ [platform_timer h])
    (hw_released d ++ [platform_timer h])
    (retired d ++ [mkHandle (platform_timer h) Disposed (interval h)])
    (time_source d) (zero_interval_supported d).

(** Modelled from the spec: [Dispose] of a handle stops it if armed,
    releases the hardware resource and retires the handle; on an already
    [Disposed] handle it succeeds without releasing again. *)
Definition dispose (h : NativeTimerHandle) (d : State) : State :=
  if decide (mode h = Disposed) then d else release h d.

(** *** The operations behind the shims *)

Section Operations.
Context `{FailureCodes}.

(** A failure is written to [hr]; on success [hr] is left as it was. *)
Definition fail (k : FailureKind) (d : State) : HRESULT * State := (code k, d).

(** Modelled from the spec: [Create] refuses a reference that is already
    associated, reports [ResourceExhausted] when no hardware timer slot
    remains, and otherwise allocates a slot, associates an [Idle] handle
    and returns its identifier. *)
Definition NativeEspTimerCreate (pMngObj : HeapBlockPtr) (hr : HRESULT)
    (d : State) : Z * HRESULT * State :=
  match table d !! pMngObj with
  | Some _ => (0, code InvalidState, d)
  | None =>
      match hw_free d with
      | [] => (0, code ResourceExhausted, d)
      | t :: free =>
          (t, hr,
           mkState (<[pMngObj := mkHandle t Idle 0]> (table d)) free
             (hw_released d) (retired d) (time_source d)
             (zero_interval_supported d))
      end
  end.

(** Modelled from the spec: [Dispose] is idempotent; with no entry for
    the reference it succeeds and changes nothing, otherwise it disposes
    of the handle and removes the entry. *)
Definition NativeEspTimerDispose (pMngObj : HeapBlockPtr) (hr : HRESULT)
    (d : State) : HRESULT * State :=
  match lookup pMngObj d with
  | inl _ => (hr, remove pMngObj d)
  | inr h => (hr, remove pMngObj (dispose h d))
  end.

(** Modelled from the spec: [Stop] looks the handle up, propagating the
    not-found error, then stops it. *)
Definition NativeStop (pMngObj : HeapBlockPtr) (hr : HRESULT)
    (d : State) : HRESULT * State :=
  match lookup pMngObj d with
  | inl k => fail k d
  | inr h =>
      match stop h with
      | inl k => fail k d
      | inr h' => (hr, set_table (<[pMngObj := h']> (table d)) d)
      end
  end.

Definition start (m : Mode) (pMngObj : HeapBlockPtr) (intervalTicks : Z)
    (hr : HRESULT) (d : State) : HRESULT * State :=
  match lookup pMngObj d with
  | inl k => fail k d
  | inr h =>
      match arm m (zero_interval_supported d) h intervalTicks with
      | inl k => fail k d
      | inr h' => (hr, set_table (<[pMngObj := h']> (table d)) d)
      end
  end.

(** Modelled from the spec: [StartOneShot] and [StartPeriodic] look the
    handle up, propagating the not-found error, then arm it. *)
Definition NativeStartOneShot := start ArmedOneShot.
Definition NativeStartPeriodic := start ArmedPeriodic.

(** Modelled from the spec: [GetCurrent] reads the free-running unsigned
    64-bit counter; it fails only when the time source is
    unavailable. *)
Definition NativeGetCurrent (hr : HRESULT) (d : State) : Z * HRESULT * State :=
  match time_source d with
  | Some c => (c mod 2 ^ 64, hr, d)
  | None => (0, code PlatformFault, d)
  end.

Global Instance driver : HighResTimer.Driver State := {|
  HighResTimer.NativeEspTimerCreate := NativeEspTimerCreate;
  HighResTimer.NativeEspTimerDispose := NativeEspTimerDispose;
  HighResTimer.NativeStop := NativeStop;
  HighResTimer.NativeStartOneShot := NativeStartOneShot;
  HighResTimer.NativeStartPeriodic := NativeStartPeriodic;
  HighResTimer.NativeGetCurrent := NativeGetCurrent
|}.
End Operations.

End TimerModel.

(** ** Concrete inputs *)

Module Examples.
Import StackModel TimerModel.

Local Existing Instance example_codes.

(** A managed timer object at address 16. *)
Definition timer_ref : HeapBlockPtr := 16%N.

(** An instance call with no argument. *)
Definition stack_this : CLR_RT_StackFrame :=
  mkStack [HB_Object timer_ref] None.

(** An instance call with a well-formed interval of 1000 ticks. *)
Definition stack_interval : CLR_RT_StackFrame :=
  mkStack [HB_Object timer_ref; HB_U8 1000] None.

(** An instance call whose interval slot holds a signed 32-bit value. *)
Definition stack_bad_interval : CLR_RT_StackFrame :=
  mkStack [HB_Object timer_ref; HB_I4 5] None.

(** A call with a null managed object and a malformed interval slot. *)
Definition stack_null_bad_interval : CLR_RT_StackFrame :=
  mkStack [HB_Object NULL; HB_I4 5] None.

(** A static call. *)
Definition stack_static : CLR_RT_StackFrame := mkStack [] None.

(** A driver with four free hardware timers and no timer created. *)
Definition fresh : State := mkState ∅ [0; 1; 2; 3] [] [] (Some 123456) false.

(** The same driver with an unavailable time source. *)
Definition no_clock : State := mkState ∅ [0; 1; 2; 3] [] [] None false.

(** A driver with no free hardware timer. *)
Definition exhausted : State := mkState ∅ [] [] [] None false.

(** The driver after [timer_ref] was created. *)
Definition created : State :=
  driver_out (NativeEspTimerCreate___I4 stack_this fresh).
End Examples.

(** * Properties *)

(** ** What each shim computes *)

(** Unfolds a shim down to the collaborators' functions. *)
Ltac unfold_shim :=
  unfold NativeEspTimerCreate___I4, NativeEspTimerDispose___VOID,
    NativeStop___VOID, NativeStartOneShot___VOID__U8,
    NativeStartPeriodic___VOID__U8, NativeGetCurrent___STATIC__U8,
    NANOCLR_NOCLEANUP, NANOCLR_CHECK_HRESULT, FAULT_ON_NULL,
    NANOCLR_SET_AND_LEAVE, NANOCLR_LEAVE, NANOCLR_HEADER, assign_hr, read_hr,
    call_Interop_Marshal_RetrieveManagedObject, call_Interop_Marshal_UINT64,
    call_SetResult_INT32, call_SetResult_UINT64, call_driver_value,
    call_driver_void, mbind, mret, Shim_bind, Shim_ret, shim_bind, shim_ret,
    record, set_hr, set_stack, set_driver; cbn.

(** Picks the members of a finite list of shims, one goal per member. *)
Ltac each_shim H :=
  repeat (apply elem_of_cons in H as [-> | H]);
  [.. | apply elem_of_nil in H; destruct H].

Section ShimEquations.
Context {CLR_RT_StackFrame D : Type} `{!InteropRuntime CLR_RT_StackFrame}
        `{!HighResTimer.Driver D} `{!RuntimeErrors}.
Implicit Types (stack : CLR_RT_StackFrame) (d : D) (h : HRESULT).

Local Abbreviation this stack := (Interop_Marshal_RetrieveManagedObject stack).

Lemma NativeEspTimerCreate___I4_eq stack d :
  NativeEspTimerCreate___I4 stack d =
    if (this stack =? NULL)%N then
      mkOutcome (Some CLR_E_NULL_REFERENCE) stack d [Call_RetrieveManagedObject]
    else
      let '(retVal, h, d') :=
        HighResTimer.NativeEspTimerCreate (this stack) S_OK d in
      if FAILED h then
        mkOutcome (Some h) stack d'
          [Call_RetrieveManagedObject;
           Call_NativeEspTimerCreate (this stack) S_OK h]
      else
        mkOutcome (Some S_OK) (SetResult_INT32 stack retVal) d'
          [Call_RetrieveManagedObject;
           Call_NativeEspTimerCreate (this stack) S_OK h;
           Call_SetResult_INT32 retVal].
Proof.
  unfold_shim. destruct (this stack =? NULL)%N; cbn; [done |].
  destruct (HighResTimer.NativeEspTimerCreate _ _ _) as [[retVal h] d']; cbn.
  by destruct (FAILED h).
Qed.

Lemma NativeEspTimerDispose___VOID_eq stack d :
  NativeEspTimerDispose___VOID stack d =
    if (this stack =? NULL)%N then
      mkOutcome (Some CLR_E_NULL_REFERENCE) stack d [Call_RetrieveManagedObject]
    else
      let '(h, d') := HighResTimer.NativeEspTimerDispose (this stack) S_OK d in
      mkOutcome (Some (if FAILED h then h else S_OK)) stack d'
        [Call_RetrieveManagedObject;
         Call_NativeEspTimerDispose (this stack) S_OK h].
Proof.
  unfold_shim. destruct (this stack =? NULL)%N; cbn; [done |].
  destruct (HighResTimer.NativeEspTimerDispose _ _ _) as [h d']; cbn.
  by destruct (FAILED h).
Qed.

Lemma NativeStop___VOID_eq stack d :
  NativeStop___VOID stack d =
    if (this stack =? NULL)%N then
      mkOutcome (Some CLR_E_NULL_REFERENCE) stack d [Call_RetrieveManagedObject]
    else
      let '(h, d') := HighResTimer.NativeStop (this stack) S_OK d in
      mkOutcome (Some (if FAILED h then h else S_OK)) stack d'
        [Call_RetrieveManagedObject; Call_NativeStop (this stack) S_OK h].
Proof.
  unfold_shim. destruct (this stack =? NULL)%N; cbn; [done |].
  destruct (HighResTimer.NativeStop _ _ _) as [h d']; cbn.
  by destruct (FAILED h).
Qed.

Lemma NativeStartOneShot___VOID__U8_eq stack d :
  NativeStartOneShot___VOID__U8 stack d =
    if (this stack =? NULL)%N then
      mkOutcome (Some CLR_E_NULL_REFERENCE) stack d [Call_RetrieveManagedObject]
    else
      let '(hm, param0) := Interop_Marshal_UINT64 stack 1 in
      if FAILED hm then
        mkOutcome (Some hm) stack d
          [Call_RetrieveManagedObject; Call_Marshal_UINT64 1]
      else
        let '(h, d') :=
          HighResTimer.NativeStartOneShot (this stack) param0 hm d in
        mkOutcome (Some (if FAILED h then h else S_OK)) stack d'
          [Call_RetrieveManagedObject; Call_Marshal_UINT64 1;
           Call_NativeStartOneShot (this stack) param0 hm h].
Proof.
  unfold_shim. destruct (this stack =? NULL)%N; cbn; [done |].
  destruct (Interop_Marshal_UINT64 stack 1) as [hm param0]; cbn.
  destruct (FAILED hm); cbn; [done |].
  destruct (HighResTimer.NativeStartOneShot _ _ _ _) as [h d']; cbn.
  by destruct (FAILED h).
Qed.

Lemma NativeStartPeriodic___VOID__U8_eq stack d :
  NativeStartPeriodic___VOID__U8 stack d =
    if (this stack =? NULL)%N then
      mkOutcome (Some CLR_E_NULL_REFERENCE) stack d [Call_RetrieveManagedObject]
    else
      let '(hm, param0) := Interop_Marshal_UINT64 stack 1 in
      if FAILED hm then
        mkOutcome (Some hm) stack d
          [Call_RetrieveManagedObject; Call_Marshal_UINT64 1]
      else
        let '(h, d') :=
          HighResTimer.NativeStartPeriodic (this stack) param0 hm d in
        mkOutcome (Some (if FAILED h then h else S_OK)) stack d'
          [Call_RetrieveManagedObject; Call_Marshal_UINT64 1;
           Call_NativeStartPeriodic (this stack) param0 hm h].
Proof.
  unfold_shim. destruct (this stack =? NULL)%N; cbn; [done |].
  destruct (Interop_Marshal_UINT64 stack 1) as [hm param0]; cbn.
  destruct (FAILED hm); cbn; [done |].
  destruct (HighResTimer.NativeStartPeriodic _ _ _ _) as [h d']; cbn.
  by destruct (FAILED h).
Qed.

Lemma NativeGetCurrent___STATIC__U8_eq stack d :
  NativeGetCurrent___STATIC__U8 stack d =
    let '(retVal, h, d') := HighResTimer.NativeGetCurrent S_OK d in
    if FAILED h then
      mkOutcome (Some h) stack d' [Call_NativeGetCurrent S_OK h]
    else
      mkOutcome (Some S_OK) (SetResult_UINT64 stack retVal) d'
        [Call_NativeGetCurrent S_OK h; Call_SetResult_UINT64 retVal].
Proof.
  unfold_shim.
  destruct (HighResTimer.NativeGetCurrent _ _) as [[retVal h] d']; cbn.
  by destruct (FAILED h).
Qed.

Lemma null_ptr_eqb (p : HeapBlockPtr) : p = NULL -> (p =? NULL)%N = true.
Proof. intros ->. done. Qed.

Lemma nonnull_ptr_eqb (p : HeapBlockPtr) : p ≠ NULL -> (p =? NULL)%N = false.
Proof. intros. by apply N.eqb_neq. Qed.

End ShimEquations.

(** Rewrites a shim applied to its inputs into what it computes. *)
Ltac shim_eq :=
  rewrite ?NativeEspTimerCreate___I4_eq, ?NativeEspTimerDispose___VOID_eq,
    ?NativeStop___VOID_eq, ?NativeStartOneShot___VOID__U8_eq,
    ?NativeStartPeriodic___VOID__U8_eq, ?NativeGetCurrent___STATIC__U8_eq.

(** Splits on the tests and collaborator results a shim's outcome depends
    on. *)
Ltac split_outcome :=
  repeat match goal with
    | H : context [(?p =? NULL)%N] |- _ => rewrite H in *
    | |- context [(?p =? NULL)%N] => destruct (p =? NULL)%N eqn:?
    | H : ?x = (_, _) |- context [?x] => rewrite H
    | |- context [let '(_, _) := ?x in _] =>
        lazymatch x with
        | spec_first_failure _ => fail
        | _ => destruct x as [? ?] eqn:?
        end
    | H : FAILED ?h = _ |- context [FAILED ?h] => rewrite H
    | |- context [FAILED ?h] => destruct (FAILED h) eqn:?
    end;
  cbn in *.

(** ** The dispatcher contract, for any runtime and any driver *)

Section DispatcherContract.
Context {CLR_RT_StackFrame D : Type} `{!InteropRuntime CLR_RT_StackFrame}
        `{!HighResTimer.Driver D} `{!RuntimeErrors}.
Implicit Types (stack : CLR_RT_StackFrame) (d : D) (h : HRESULT).
Implicit Types (shim : CLR_RT_StackFrame -> D -> @Outcome CLR_RT_StackFrame D).

Local Abbreviation this stack := (Interop_Marshal_RetrieveManagedObject stack).

(** C1. In [NativeStartOneShot___VOID__U8] and
    [NativeStartPeriodic___VOID__U8], when [Interop_Marshal_UINT64] returns
    a failure for the interval slot, no Timer Resource Driver operation is
    invoked and the driver state is the one the shim started with; when
    the managed object is not null, so that the decode is reached, the
    shim returns that failure. *)
Theorem decode_failure_skips_driver shim stack d hm param0 :
  shim ∈ start_shims ->
  Interop_Marshal_UINT64 stack 1 = (hm, param0) ->
  FAILED hm = true ->
  invokes_driver (shim stack d) = false ∧
  driver_out (shim stack d) = d ∧
  (this stack ≠ NULL -> status (shim stack d) = Some hm).
Proof.
  intros Hshim Hm Hfail.
  each_shim Hshim; shim_eq; unfold invokes_driver;
    split_outcome; repeat split; try done;
    intros Hnn; by apply N.eqb_eq in Heqb.
Qed.

(** C2. In each of the five instance operations, when the managed object
    retrieved from the stack frame is null the shim returns
    [CLR_E_NULL_REFERENCE] having made no other call than the retrieval:
    no argument is decoded, no driver operation is invoked, and the stack
    frame and the driver state are untouched. *)
Theorem null_reference_fails_fast shim stack d :
  shim ∈ instance_shims ->
  this stack = NULL ->
  shim stack d =
    mkOutcome (Some CLR_E_NULL_REFERENCE) stack d [Call_RetrieveManagedObject]
  ∧ decodes_argument (shim stack d) = false
  ∧ invokes_driver (shim stack d) = false.
Proof.
  intros Hshim Hnull. apply null_ptr_eqb in Hnull.
  each_shim Hshim; shim_eq;
    unfold decodes_argument, invokes_driver; by rewrite Hnull.
Qed.

(** C3. [NativeEspTimerCreate___I4] and [NativeGetCurrent___STATIC__U8]
    write the result slot exactly when the driver operation is invoked and
    leaves a non-failure [hr]; then the slot holds the operation's return
    value; when the operation leaves a failure [hr], the shim returns it
    and the stack frame is unchanged. *)
Theorem result_written_iff_success stack d retVal h d1 ticks h' d2 :
  HighResTimer.NativeEspTimerCreate (this stack) S_OK d = (retVal, h, d1) ->
  HighResTimer.NativeGetCurrent S_OK d = (ticks, h', d2) ->
  let create := NativeEspTimerCreate___I4 stack d in
  let current := NativeGetCurrent___STATIC__U8 stack d in
  (writes_result create = negb (this stack =? NULL)%N && negb (FAILED h) ∧
   (this stack ≠ NULL -> FAILED h = false ->
      status create = Some S_OK ∧
      stack_out create = SetResult_INT32 stack retVal) ∧
   (this stack ≠ NULL -> FAILED h = true ->
      status create = Some h ∧ stack_out create = stack)) ∧
  (writes_result current = negb (FAILED h') ∧
   (FAILED h' = false ->
      status current = Some S_OK ∧
      stack_out current = SetResult_UINT64 stack ticks) ∧
   (FAILED h' = true ->
      status current = Some h' ∧ stack_out current = stack)).
Proof.
  intros Hc Hg create current. subst create current. shim_eq.
  rewrite Hc, Hg. unfold writes_result. split.
  - destruct (this stack =? NULL)%N eqn:Hp.
    + apply N.eqb_eq in Hp. by repeat split.
    + destruct (FAILED h); by repeat split.
  - destruct (FAILED h'); by repeat split.
Qed.

(** C4. Each shim makes the calls and returns the status of
    [spec_dispatch] on the steps of its operation: the run stops at the
    first failing step, whose status is returned as it is. *)
Theorem first_failure_is_returned shim steps stack d :
  FAILED CLR_E_NULL_REFERENCE = true ->
  (shim, steps) ∈ dispatch_table ->
  observed (shim stack d) = spec_dispatch (steps stack d).
Proof.
  intros Hnull Hin.
  repeat (apply elem_of_cons in Hin as [[= -> ->] | Hin]);
    [.. | by apply elem_of_nil in Hin];
    shim_eq;
    unfold observed, spec_dispatch, steps_NativeEspTimerCreate,
      steps_NativeEspTimerDispose, steps_NativeStop,
      steps_NativeStartOneShot, steps_NativeStartPeriodic,
      steps_NativeGetCurrent, step_resolve, step_decode, null_check;
    split_outcome; rewrite ?Hnull; cbn;
    repeat match goal with
      | H : FAILED ?h = _ |- context [FAILED ?h] => rewrite H; cbn
      end; done.
Qed.

(** C8. Every shim returns a defined status on every input.  A driver
    operation is always handed an assigned, non-failure [hr]: the [S_OK]
    of the initialisation, or, in the two shims that decode an argument,
    the non-failure status of the decode.  When the operation returns with
    [hr] as it received it, the shim returns [S_OK]. *)
Theorem hr_is_initialised shim stack d :
  shim ∈ all_shims ->
  is_Some (status (shim stack d)) ∧
  forall c hr_in hr_out,
    c ∈ calls_out (shim stack d) ->
    driver_call_hr c = Some (hr_in, hr_out) ->
    FAILED hr_in = false ∧
    (decodes_argument (shim stack d) = false -> hr_in = S_OK) ∧
    (decodes_argument (shim stack d) = true ->
       hr_in = fst (Interop_Marshal_UINT64 stack 1)) ∧
    (hr_out = hr_in -> status (shim stack d) = Some S_OK).
Proof.
  intros Hshim.
  each_shim Hshim; shim_eq; unfold decodes_argument; split_outcome;
    (split; [done |]); intros c hr_in hr_out Hc Hhr;
    repeat (apply elem_of_cons in Hc as [-> | Hc]);
    try (by apply elem_of_nil in Hc); try discriminate Hhr;
    injection Hhr as <- <-; repeat split; try done;
    try (intros <-; done);
    try (intros ->; congruence); congruence.
Qed.

(** C9. In the two shims that decode an interval, a null managed object
    makes the shim return [CLR_E_NULL_REFERENCE] without decoding,
    whatever the interval slot holds; the interval is decoded only when
    the managed object is not null. *)
Theorem null_check_precedes_decode shim stack d :
  shim ∈ start_shims ->
  (this stack = NULL ->
     status (shim stack d) = Some CLR_E_NULL_REFERENCE ∧
     decodes_argument (shim stack d) = false) ∧
  (decodes_argument (shim stack d) = true -> this stack ≠ NULL).
Proof.
  intros Hshim.
  each_shim Hshim; shim_eq; unfold decodes_argument;
    (destruct (this stack =? NULL)%N eqn:Hp;
     [ apply N.eqb_eq in Hp | apply N.eqb_neq in Hp ]);
    split_outcome; split; try done; by intros [].
Qed.

(** C10. The four [___VOID] shims leave the stack frame as they received
    it and make no [SetResult_*] call, on every input; among all shims a
    [SetResult_*] call is made only by runs of
    [NativeEspTimerCreate___I4] and [NativeGetCurrent___STATIC__U8]. *)
Theorem void_shims_keep_result_slot shim shim' stack d :
  shim ∈ void_shims ->
  shim' ∈ all_shims ->
  (stack_out (shim stack d) = stack ∧ writes_result (shim stack d) = false) ∧
  (writes_result (shim' stack d) = true ->
     shim' stack d = NativeEspTimerCreate___I4 stack d ∨
     shim' stack d = NativeGetCurrent___STATIC__U8 stack d).
Proof.
  intros Hshim Hshim'. split.
  - each_shim Hshim; shim_eq; unfold writes_result; split_outcome; done.
  - each_shim Hshim'; auto;
      shim_eq; unfold writes_result; split_outcome; done.
Qed.

End DispatcherContract.

(** ** The dispatcher over the timer driver, for any runtime *)

Section TimerContract.
Import TimerModel.
Context {CLR_RT_StackFrame : Type} `{!InteropRuntime CLR_RT_StackFrame}
        `{!FailureCodes}.
Implicit Types (stack : CLR_RT_StackFrame) (d : State) (h : HRESULT).

Local Abbreviation this stack := (Interop_Marshal_RetrieveManagedObject stack).

Lemma remove_absent (ref : HeapBlockPtr) d :
  table d !! ref = None -> remove ref d = d.
Proof.
  intros Hnone. destruct d as [t f r g c z]; unfold remove, set_table; cbn in *.
  f_equal. by apply delete_id.
Qed.

Lemma remove_lookup (ref : HeapBlockPtr) d : table (remove ref d) !! ref = None.
Proof. unfold remove, set_table; cbn. apply lookup_delete_eq. Qed.

Lemma NativeEspTimerDispose_unassociated (ref : HeapBlockPtr) h d :
  table d !! ref = None -> NativeEspTimerDispose ref h d = (h, d).
Proof.
  intros Hnone. unfold NativeEspTimerDispose, lookup. rewrite Hnone.
  by rewrite remove_absent.
Qed.

Lemma NativeEspTimerDispose_removes (ref : HeapBlockPtr) h d :
  table (NativeEspTimerDispose ref h d).2 !! ref = None.
Proof.
  unfold NativeEspTimerDispose. destruct (lookup ref d); cbn;
    apply remove_lookup.
Qed.

(** C5. [NativeGetCurrent___STATIC__U8] retrieves no managed object and
    decodes no argument; it leaves the driver state, association table
    included, as it was, and what it returns depends on the time source
    alone: with a counter value [c] it returns [S_OK] and stores the
    unsigned 64-bit value of [c] in the result slot; with the time source
    unavailable it returns the platform fault and leaves the stack frame
    unchanged. *)
Theorem get_current_is_static stack stack' d d' :
  FailureCodesOk _ ->
  time_source d' = time_source d ->
  let out := NativeGetCurrent___STATIC__U8 stack d in
  let out' := NativeGetCurrent___STATIC__U8 stack' d' in
  existsb is_retrieve (calls_out out) = false ∧
  decodes_argument out = false ∧
  driver_out out = d ∧
  (status out' = status out ∧ calls_out out' = calls_out out) ∧
  match time_source d with
  | Some c =>
      status out = Some S_OK ∧
      stack_out out = SetResult_UINT64 stack (c mod 2 ^ 64) ∧
      0 <= c mod 2 ^ 64 < 2 ^ 64
  | None =>
      status out = Some (code PlatformFault) ∧ stack_out out = stack
  end.
Proof.
  intros [Hfailed _] Hts out out'. subst out out'. shim_eq.
  cbn. unfold NativeGetCurrent, decodes_argument. rewrite Hts.
  destruct (time_source d) as [c |]; cbn.
  - repeat split; try done; by apply Z.mod_pos_bound.
  - rewrite Hfailed. by repeat split.
Qed.

(** C6. After a [NativeEspTimerDispose___VOID] that returned a non-failure
    status, a second one on the same managed object returns [S_OK] and
    leaves the driver state as it found it: no hardware timer is released
    again.  The reference has no association entry, so that a lookup, and
    [NativeStop___VOID], report [NotFound]. *)
Theorem dispose_is_idempotent stack1 stack2 d h1 :
  FailureCodesOk _ ->
  this stack2 = this stack1 ->
  status (NativeEspTimerDispose___VOID stack1 d) = Some h1 ->
  FAILED h1 = false ->
  let d1 := driver_out (NativeEspTimerDispose___VOID stack1 d) in
  let out2 := NativeEspTimerDispose___VOID stack2 d1 in
  status out2 = Some S_OK ∧
  driver_out out2 = d1 ∧
  hw_released (driver_out out2) = hw_released d1 ∧
  hw_free (driver_out out2) = hw_free d1 ∧
  table (driver_out out2) !! this stack1 = None ∧
  lookup (this stack1) (driver_out out2) = inl NotFound ∧
  status (NativeStop___VOID stack2 (driver_out out2)) = Some (code NotFound).
Proof.
  intros [Hfailed _] Hthis Hst Hok d1 out2. subst d1 out2.
  revert Hst. shim_eq. rewrite Hthis.
  destruct (this stack1 =? NULL)%N eqn:Hp; cbn.
  { intros [= <-]. cbn in Hok. rewrite Hfailed in Hok. done. }
  intros _. clear Hok h1.
  pose proof (NativeEspTimerDispose_removes (this stack1) S_OK d) as Hgone.
  destruct (NativeEspTimerDispose (this stack1) S_OK d) as [h1 d1] eqn:E1.
  cbn in *. rewrite (NativeEspTimerDispose_unassociated _ _ _ Hgone). cbn.
  unfold NativeStop, lookup. rewrite Hgone. cbn.
  rewrite Hfailed. by repeat split.
Qed.

(** C7, as amended.  On a non-null managed object with no association
    entry, [NativeStop___VOID] returns [NotFound];
    [NativeStartOneShot___VOID__U8] and [NativeStartPeriodic___VOID__U8]
    return [NotFound] when the interval decodes without failure, and the
    decode failure otherwise.  [NotFound] is a failure status and the
    driver state is unchanged. *)
Theorem unassociated_reference_not_found shim stack d hm param0 :
  FailureCodesOk _ ->
  this stack ≠ NULL ->
  table d !! this stack = None ->
  Interop_Marshal_UINT64 stack 1 = (hm, param0) ->
  shim ∈ start_shims ->
  FAILED (code NotFound) = true ∧
  (status (NativeStop___VOID stack d) = Some (code NotFound) ∧
   driver_out (NativeStop___VOID stack d) = d) ∧
  (FAILED hm = false -> status (shim stack d) = Some (code NotFound)) ∧
  (FAILED hm = true -> status (shim stack d) = Some hm) ∧
  driver_out (shim stack d) = d.
Proof.
  intros [Hfailed _] Hnn Hnone Hm Hshim. apply nonnull_ptr_eqb in Hnn.
  split; [done |]. split.
  - shim_eq. rewrite Hnn. cbn. unfold NativeStop, lookup. rewrite Hnone.
    cbn. by rewrite Hfailed.
  - each_shim Hshim; shim_eq; rewrite Hnn, Hm;
      cbn; unfold NativeStartOneShot, NativeStartPeriodic, start, lookup;
      rewrite Hnone; cbn; rewrite Hfailed;
      destruct (FAILED hm); by repeat split.
Qed.

End TimerContract.

(** ** The theorems on concrete inputs *)

Lemma example_codes_ok : FailureCodesOk example_codes.
Proof.
  split.
  - by intros [].
  - intros [] []; vm_compute; congruence.
Qed.

(** Membership of the [n]-th entry of a list. *)
Tactic Notation "nth_member" integer(n) :=
  do n apply list_elem_of_further; apply list_elem_of_here.

Section ConcreteRuns.
Import StackModel TimerModel Examples.
Local Existing Instance example_codes.

Local Abbreviation E_ARGUMENT := (code ArgumentTypeOrRange).

(** A start with a wrongly typed interval on a created timer: the decode
    failure is returned and the timer is not armed. *)
Lemma decode_failure_skips_driver_witness :
  Interop_Marshal_UINT64 stack_bad_interval 1 = (E_ARGUMENT, 0) ∧
  FAILED E_ARGUMENT = true ∧
  invokes_driver (NativeStartOneShot___VOID__U8 stack_bad_interval created) = false ∧
  driver_out (NativeStartOneShot___VOID__U8 stack_bad_interval created) = created ∧
  status (NativeStartOneShot___VOID__U8 stack_bad_interval created) = Some E_ARGUMENT.
Proof.
  assert (Hm : Interop_Marshal_UINT64 stack_bad_interval 1 = (E_ARGUMENT, 0))
    by reflexivity.
  assert (Hf : FAILED E_ARGUMENT = true) by reflexivity.
  destruct (decode_failure_skips_driver NativeStartOneShot___VOID__U8
              stack_bad_interval created _ _ ltac:(nth_member 0) Hm Hf)
    as (Hno & Hsame & Hret).
  split; [exact Hm |]. split; [exact Hf |]. split; [exact Hno |].
  split; [exact Hsame |]. apply Hret. vm_compute. discriminate.
Defined.

(** A stop on a null managed object. *)
Lemma null_reference_fails_fast_witness :
  Interop_Marshal_RetrieveManagedObject stack_null_bad_interval = NULL ∧
  NativeStop___VOID stack_null_bad_interval created =
    mkOutcome (Some CLR_E_NULL_REFERENCE) stack_null_bad_interval created
      [Call_RetrieveManagedObject].
Proof.
  assert (Hnull : Interop_Marshal_RetrieveManagedObject stack_null_bad_interval = NULL)
    by reflexivity.
  split; [assumption |].
  apply (null_reference_fails_fast NativeStop___VOID stack_null_bad_interval
           created ltac:(nth_member 2) Hnull).
Defined.

(** A create on a fresh driver writes handle 0; a read of the counter
    writes the tick count. *)
Lemma result_written_iff_success_witness :
  HighResTimer.NativeEspTimerCreate timer_ref S_OK fresh = (0, S_OK, created) ∧
  HighResTimer.NativeGetCurrent S_OK fresh = (123456, S_OK, fresh) ∧
  writes_result (NativeEspTimerCreate___I4 stack_this fresh) = true ∧
  stack_out (NativeEspTimerCreate___I4 stack_this fresh) =
    mkStack [HB_Object timer_ref] (Some (HB_I4 0)) ∧
  writes_result (NativeGetCurrent___STATIC__U8 stack_this fresh) = true ∧
  stack_out (NativeGetCurrent___STATIC__U8 stack_this fresh) =
    mkStack [HB_Object timer_ref] (Some (HB_U8 123456)).
Proof.
  assert (Hc : HighResTimer.NativeEspTimerCreate
                 (Interop_Marshal_RetrieveManagedObject stack_this) S_OK fresh
               = (0, S_OK, created)) by reflexivity.
  assert (Hg : HighResTimer.NativeGetCurrent S_OK fresh = (123456, S_OK, fresh))
    by reflexivity.
  destruct (result_written_iff_success stack_this fresh _ _ _ _ _ _ Hc Hg)
    as [(Hw & Hok & _) (Hw' & Hok' & _)].
  split; [exact Hc |]. split; [exact Hg |]. split; [exact Hw |].
  split; [apply (Hok ltac:(vm_compute; discriminate) eq_refl) |].
  split; [exact Hw' |]. apply (Hok' eq_refl).
Defined.

(** A start with a wrongly typed interval stops at the decode. *)
Lemma first_failure_is_returned_witness :
  FAILED CLR_E_NULL_REFERENCE = true ∧
  observed (NativeStartOneShot___VOID__U8 stack_bad_interval created) =
    ([Call_RetrieveManagedObject; Call_Marshal_UINT64 1], Some E_ARGUMENT).
Proof.
  assert (Hf : FAILED CLR_E_NULL_REFERENCE = true) by reflexivity.
  split; [assumption |].
  rewrite (first_failure_is_returned NativeStartOneShot___VOID__U8
             steps_NativeStartOneShot stack_bad_interval created Hf
             ltac:(nth_member 3)).
  reflexivity.
Defined.

(** A periodic start on a created timer: the driver receives [S_OK], leaves
    it, and the shim returns [S_OK]. *)
Lemma hr_is_initialised_witness :
  Call_NativeStartPeriodic timer_ref 1000 S_OK S_OK
    ∈ calls_out (NativeStartPeriodic___VOID__U8 stack_interval created) ∧
  status (NativeStartPeriodic___VOID__U8 stack_interval created) = Some S_OK.
Proof.
  assert (Hc : Call_NativeStartPeriodic timer_ref 1000 S_OK S_OK
                 ∈ calls_out (NativeStartPeriodic___VOID__U8 stack_interval created))
    by (nth_member 2).
  split; [assumption |].
  destruct (hr_is_initialised NativeStartPeriodic___VOID__U8 stack_interval
              created ltac:(nth_member 5)) as [_ Hcalls].
  destruct (Hcalls _ S_OK S_OK Hc eq_refl) as (_ & _ & _ & Hkeep).
  apply Hkeep. reflexivity.
Defined.

(** A start on a null managed object with a malformed interval slot. *)
Lemma null_check_precedes_decode_witness :
  Interop_Marshal_RetrieveManagedObject stack_null_bad_interval = NULL ∧
  FAILED (Interop_Marshal_UINT64 stack_null_bad_interval 1).1 = true ∧
  status (NativeStartOneShot___VOID__U8 stack_null_bad_interval created)
    = Some CLR_E_NULL_REFERENCE ∧
  decodes_argument (NativeStartOneShot___VOID__U8 stack_null_bad_interval created)
    = false.
Proof.
  assert (Hnull : Interop_Marshal_RetrieveManagedObject stack_null_bad_interval = NULL)
    by reflexivity.
  split; [assumption |]. split; [reflexivity |].
  destruct (null_check_precedes_decode NativeStartOneShot___VOID__U8
              stack_null_bad_interval created ltac:(nth_member 0))
    as [Hn _].
  apply (Hn Hnull).
Defined.

(** A dispose leaves the (empty) result slot of its stack frame alone. *)
Lemma void_shims_keep_result_slot_witness :
  stack_out (NativeEspTimerDispose___VOID stack_this created) = stack_this ∧
  writes_result (NativeEspTimerDispose___VOID stack_this created) = false.
Proof.
  apply (void_shims_keep_result_slot NativeEspTimerDispose___VOID
           NativeGetCurrent___STATIC__U8 stack_this created
           ltac:(nth_member 0) ltac:(nth_member 0)).
Defined.

(** The counter is read the same way whatever the stack frame and the
    association table hold. *)
Lemma get_current_is_static_witness :
  time_source created = time_source fresh ∧
  status (NativeGetCurrent___STATIC__U8 stack_this created)
    = status (NativeGetCurrent___STATIC__U8 stack_static fresh) ∧
  status (NativeGetCurrent___STATIC__U8 stack_static fresh) = Some S_OK ∧
  stack_out (NativeGetCurrent___STATIC__U8 stack_static fresh)
    = mkStack [] (Some (HB_U8 123456)).
Proof.
  assert (Hts : time_source created = time_source fresh) by reflexivity.
  split; [assumption |].
  destruct (get_current_is_static stack_static stack_this fresh created
              example_codes_ok Hts) as (_ & _ & _ & [Hst _] & Hres).
  split; [assumption |]. cbn in Hres. destruct Hres as (Hok & Hout & _).
  split; assumption.
Defined.

(** Create, dispose, dispose: hardware timer 0 is released once. *)
Lemma dispose_is_idempotent_witness :
  status (NativeEspTimerDispose___VOID stack_this created) = Some S_OK ∧
  FAILED S_OK = false ∧
  let d1 := driver_out (NativeEspTimerDispose___VOID stack_this created) in
  hw_released d1 = [0] ∧
  status (NativeEspTimerDispose___VOID stack_interval d1) = Some S_OK ∧
  hw_released (driver_out (NativeEspTimerDispose___VOID stack_interval d1)) = [0] ∧
  lookup timer_ref (driver_out (NativeEspTimerDispose___VOID stack_interval d1))
    = inl NotFound.
Proof.
  assert (Hst : status (NativeEspTimerDispose___VOID stack_this created) = Some S_OK)
    by reflexivity.
  assert (Hthis : Interop_Marshal_RetrieveManagedObject stack_interval
                  = Interop_Marshal_RetrieveManagedObject stack_this)
    by reflexivity.
  split; [assumption |]. split; [reflexivity |]. intros d1.
  destruct (dispose_is_idempotent stack_this stack_interval created S_OK
              example_codes_ok Hthis Hst eq_refl)
    as (Hok & _ & Hrel & _ & _ & Hlook & _).
  split; [reflexivity |]. split; [exact Hok |]. split; [| exact Hlook].
  etrans; [exact Hrel | reflexivity].
Defined.

(** A stop and a well-formed start on a timer that was never created. *)
Lemma unassociated_reference_not_found_witness :
  Interop_Marshal_RetrieveManagedObject stack_interval ≠ NULL ∧
  table fresh !! Interop_Marshal_RetrieveManagedObject stack_interval = None ∧
  Interop_Marshal_UINT64 stack_interval 1 = (S_OK, 1000) ∧
  status (NativeStop___VOID stack_interval fresh) = Some (code NotFound) ∧
  status (NativeStartOneShot___VOID__U8 stack_interval fresh) = Some (code NotFound).
Proof.
  assert (Hnn : Interop_Marshal_RetrieveManagedObject stack_interval ≠ NULL)
    by (vm_compute; discriminate).
  assert (Hnone : table fresh !! Interop_Marshal_RetrieveManagedObject stack_interval = None)
    by reflexivity.
  assert (Hm : Interop_Marshal_UINT64 stack_interval 1 = (S_OK, 1000))
    by reflexivity.
  destruct (unassociated_reference_not_found NativeStartOneShot___VOID__U8
              stack_interval fresh S_OK 1000 example_codes_ok Hnn Hnone Hm
              ltac:(nth_member 0))
    as (_ & [Hstop _] & Hstart & _).
  split; [exact Hnn |]. split; [exact Hnone |]. split; [exact Hm |].
  split; [exact Hstop |]. apply Hstart. reflexivity.
Defined.

(** C7, counterexample.  The managed object is not null and has no
    association entry, the interval slot holds a signed 32-bit value:
    [NativeStartOneShot___VOID__U8] returns the decode failure, not
    [NotFound]. *)
Lemma unassociated_start_returns_decode_failure :
  Interop_Marshal_RetrieveManagedObject stack_bad_interval ≠ NULL ∧
  table fresh !! Interop_Marshal_RetrieveManagedObject stack_bad_interval = None ∧
  status (NativeStartOneShot___VOID__U8 stack_bad_interval fresh)
    = Some (code ArgumentTypeOrRange) ∧
  status (NativeStartOneShot___VOID__U8 stack_bad_interval fresh)
    ≠ Some (code NotFound).
Proof.
  repeat split; vm_compute; congruence.
Qed.

End ConcreteRuns.

(** ** Further properties of the shims, for any runtime and any driver *)

(** Picks the entries of a finite table of shims, one goal per entry. *)
Ltac each_entry H :=
  repeat (apply elem_of_cons in H as [[= -> ->] | H]);
  [.. | apply elem_of_nil in H; destruct H].

(** Picks the calls of an explicit list of calls, one goal per call. *)
Ltac each_call H :=
  repeat (apply elem_of_cons in H as [-> | H]);
  [.. | apply elem_of_nil in H; destruct H].

Section ShimProperties.
Context {CLR_RT_StackFrame D : Type} `{!InteropRuntime CLR_RT_StackFrame}
        `{!HighResTimer.Driver D} `{!RuntimeErrors}.
Implicit Types (stack : CLR_RT_StackFrame) (d : D) (h : HRESULT).
Implicit Types (shim : CLR_RT_StackFrame -> D -> @Outcome CLR_RT_StackFrame D).

Local Abbreviation this stack := (Interop_Marshal_RetrieveManagedObject stack).

(** X1. The status a shim returns is [S_OK], a failure, or the code of the
    null check: a non-failure status other than [S_OK] left in [hr] by the
    driver or by the decode is never handed to the caller. *)
Theorem status_is_S_OK_or_failure shim stack d h :
  shim ∈ all_shims ->
  status (shim stack d) = Some h ->
  h = S_OK ∨ FAILED h = true ∨ h = CLR_E_NULL_REFERENCE.
Proof.
  intros Hshim.
  each_shim Hshim; shim_eq; split_outcome; intros [= <-]; auto; congruence.
Qed.

(** X2. A shim that returns a failure status has left the stack frame as it
    received it and has made no [SetResult_*] call. *)
Theorem failure_keeps_stack_frame shim stack d h :
  shim ∈ all_shims ->
  status (shim stack d) = Some h ->
  FAILED h = true ->
  stack_out (shim stack d) = stack ∧ writes_result (shim stack d) = false.
Proof.
  intros Hshim.
  each_shim Hshim; shim_eq; unfold writes_result; split_outcome;
    intros [= <-] Hf; try done; discriminate Hf.
Qed.

(** X3. A run that does not reach the driver has no effect: the stack frame
    and the driver state are the ones it started with, so that any call made
    after it behaves as if the run had not taken place. *)
Theorem run_without_driver_has_no_effect shim shim' stack d :
  shim ∈ all_shims ->
  invokes_driver (shim stack d) = false ->
  stack_out (shim stack d) = stack ∧
  driver_out (shim stack d) = d ∧
  shim' (stack_out (shim stack d)) (driver_out (shim stack d)) = shim' stack d.
Proof.
  intros Hshim Hno.
  assert (stack_out (shim stack d) = stack ∧ driver_out (shim stack d) = d)
    as [Hs Hd].
  { revert Hno.
    each_shim Hshim; shim_eq; unfold invokes_driver; split_outcome; done. }
  by rewrite Hs, Hd.
Qed.


(** X5. A shim calls the driver at most once, and only the operation it is
    generated for; the managed object it hands over is the one retrieved
    from the stack frame, and is never null. *)
Theorem driver_called_once_with_this shim op stack d :
  (shim, op) ∈ shim_operations ->
  (driver_calls (shim stack d) <= 1)%nat ∧
  forall c, c ∈ calls_out (shim stack d) ->
    (is_driver_call c = true -> call_operation c = Some op) ∧
    (forall pMngObj, call_object c = Some pMngObj ->
       pMngObj = this stack ∧ pMngObj ≠ NULL).
Proof.
  intros Hin.
  each_entry Hin; shim_eq; unfold driver_calls; split_outcome;
    (split; [cbn; lia |]); intros c Hc; each_call Hc; cbn;
    (split; [done |]); intros pMngObj [= <-];
    (split; [done |]); by apply N.eqb_neq.
Qed.

(** X6. Only argument position 1 is ever decoded, and an interval reaches
    the driver only when its decode did not fail; it is then the decoded
    value. *)
Theorem interval_comes_from_decode shim stack d c :
  shim ∈ all_shims ->
  c ∈ calls_out (shim stack d) ->
  (forall i, call_index c = Some i -> i = 1%N) ∧
  (forall v, call_interval c = Some v ->
     FAILED (Interop_Marshal_UINT64 stack 1).1 = false ∧
     v = (Interop_Marshal_UINT64 stack 1).2).
Proof.
  intros Hshim.
  each_shim Hshim; shim_eq; split_outcome; intros Hc; each_call Hc; cbn;
    (split; [by intros i [= <-] |]); intros v [= <-]; try done;
    congruence.
Qed.

(** X7. [NativeGetCurrent___STATIC__U8] does not read the stack frame: it
    makes no retrieval and no decode call, and its status, its calls and
    the driver state it leaves are the same on any two stack frames. *)
Theorem get_current_ignores_stack_frame stack stack' d c :
  c ∈ calls_out (NativeGetCurrent___STATIC__U8 stack d) ->
  (is_retrieve c = false ∧ is_marshal c = false) ∧
  status (NativeGetCurrent___STATIC__U8 stack' d)
    = status (NativeGetCurrent___STATIC__U8 stack d) ∧
  calls_out (NativeGetCurrent___STATIC__U8 stack' d)
    = calls_out (NativeGetCurrent___STATIC__U8 stack d) ∧
  driver_out (NativeGetCurrent___STATIC__U8 stack' d)
    = driver_out (NativeGetCurrent___STATIC__U8 stack d).
Proof.
  shim_eq. split_outcome; intros Hc; each_call Hc; done.
Qed.

(** X8. For the two shims that return a value, when the code of the null
    check is a failure status, the result slot is written exactly when the
    shim returns [S_OK]. *)
Theorem result_written_iff_S_OK_returned shim stack d :
  FAILED CLR_E_NULL_REFERENCE = true ->
  shim ∈ value_shims ->
  writes_result (shim stack d) = true <-> status (shim stack d) = Some S_OK.
Proof.
  intros Hnull Hshim.
  each_shim Hshim; shim_eq; unfold writes_result; split_outcome;
    split; try done; intros [= Heq]; rewrite Heq in *; discriminate.
Qed.

End ShimProperties.

(** ** The further properties on concrete inputs *)

Section ConcreteShimRuns.
Import StackModel TimerModel Examples.
Local Existing Instance example_codes.

(** A stop on a created timer returns [S_OK]. *)
Lemma status_is_S_OK_or_failure_witness :
  status (NativeStop___VOID stack_this created) = Some S_OK ∧
  (S_OK = S_OK ∨ FAILED S_OK = true ∨ S_OK = CLR_E_NULL_REFERENCE).
Proof.
  assert (Hst : status (NativeStop___VOID stack_this created) = Some S_OK)
    by reflexivity.
  split; [exact Hst |].
  exact (status_is_S_OK_or_failure NativeStop___VOID stack_this created S_OK
           ltac:(nth_member 3) Hst).
Defined.

(** A create with no free hardware timer fails and writes no handle. *)
Lemma failure_keeps_stack_frame_witness :
  status (NativeEspTimerCreate___I4 stack_this exhausted)
    = Some (code ResourceExhausted) ∧
  FAILED (code ResourceExhausted) = true ∧
  stack_out (NativeEspTimerCreate___I4 stack_this exhausted) = stack_this ∧
  writes_result (NativeEspTimerCreate___I4 stack_this exhausted) = false.
Proof.
  assert (Hst : status (NativeEspTimerCreate___I4 stack_this exhausted)
                = Some (code ResourceExhausted)) by reflexivity.
  assert (Hf : FAILED (code ResourceExhausted) = true) by reflexivity.
  split; [exact Hst |]. split; [exact Hf |].
  exact (failure_keeps_stack_frame NativeEspTimerCreate___I4 stack_this
           exhausted _ ltac:(nth_member 1) Hst Hf).
Defined.

(** A start with a malformed interval, then a stop. *)
Lemma run_without_driver_has_no_effect_witness :
  invokes_driver (NativeStartOneShot___VOID__U8 stack_bad_interval created)
    = false ∧
  NativeStop___VOID
    (stack_out (NativeStartOneShot___VOID__U8 stack_bad_interval created))
    (driver_out (NativeStartOneShot___VOID__U8 stack_bad_interval created))
  = NativeStop___VOID stack_bad_interval created.
Proof.
  assert (Hno : invokes_driver
                  (NativeStartOneShot___VOID__U8 stack_bad_interval created)
                = false) by reflexivity.
  split; [exact Hno |].
  destruct (run_without_driver_has_no_effect NativeStartOneShot___VOID__U8
              NativeStop___VOID stack_bad_interval created
              ltac:(nth_member 4) Hno) as (_ & _ & Hnext).
  exact Hnext.
Defined.


(** A periodic start on a created timer calls [NativeStartPeriodic] once,
    on [timer_ref]. *)
Lemma driver_called_once_with_this_witness :
  Call_NativeStartPeriodic timer_ref 1000 S_OK S_OK
    ∈ calls_out (NativeStartPeriodic___VOID__U8 stack_interval created) ∧
  (driver_calls (NativeStartPeriodic___VOID__U8 stack_interval created) <= 1)%nat ∧
  call_operation (Call_NativeStartPeriodic timer_ref 1000 S_OK S_OK)
    = Some OpStartPeriodic ∧
  timer_ref = Interop_Marshal_RetrieveManagedObject stack_interval.
Proof.
  assert (Hc : Call_NativeStartPeriodic timer_ref 1000 S_OK S_OK
                 ∈ calls_out (NativeStartPeriodic___VOID__U8 stack_interval created))
    by (nth_member 2).
  split; [exact Hc |].
  destruct (driver_called_once_with_this NativeStartPeriodic___VOID__U8
              OpStartPeriodic stack_interval created ltac:(nth_member 4))
    as [Hone Hcalls].
  split; [exact Hone |].
  destruct (Hcalls _ Hc) as [Hop Hobj].
  split; [exact (Hop eq_refl) |].
  exact (proj1 (Hobj timer_ref eq_refl)).
Defined.

(** The interval of a one-shot start is the decoded 1000. *)
Lemma interval_comes_from_decode_witness :
  Call_NativeStartOneShot timer_ref 1000 S_OK S_OK
    ∈ calls_out (NativeStartOneShot___VOID__U8 stack_interval created) ∧
  FAILED (Interop_Marshal_UINT64 stack_interval 1).1 = false ∧
  1000 = (Interop_Marshal_UINT64 stack_interval 1).2.
Proof.
  assert (Hc : Call_NativeStartOneShot timer_ref 1000 S_OK S_OK
                 ∈ calls_out (NativeStartOneShot___VOID__U8 stack_interval created))
    by (nth_member 2).
  split; [exact Hc |].
  destruct (interval_comes_from_decode NativeStartOneShot___VOID__U8
              stack_interval created _ ltac:(nth_member 4) Hc) as [_ Hv].
  exact (Hv 1000 eq_refl).
Defined.

(** Reading the counter on two different stack frames. *)
Lemma get_current_ignores_stack_frame_witness :
  Call_NativeGetCurrent S_OK S_OK
    ∈ calls_out (NativeGetCurrent___STATIC__U8 stack_static created) ∧
  status (NativeGetCurrent___STATIC__U8 stack_bad_interval created)
    = status (NativeGetCurrent___STATIC__U8 stack_static created).
Proof.
  assert (Hc : Call_NativeGetCurrent S_OK S_OK
                 ∈ calls_out (NativeGetCurrent___STATIC__U8 stack_static created))
    by (nth_member 0).
  split; [exact Hc |].
  destruct (get_current_ignores_stack_frame stack_static stack_bad_interval
              created _ Hc) as (_ & Hst & _).
  exact Hst.
Defined.

(** A create on a fresh driver returns [S_OK] and writes the handle. *)
Lemma result_written_iff_S_OK_returned_witness :
  FAILED CLR_E_NULL_REFERENCE = true ∧
  status (NativeEspTimerCreate___I4 stack_this fresh) = Some S_OK ∧
  writes_result (NativeEspTimerCreate___I4 stack_this fresh) = true.
Proof.
  assert (Hf : FAILED CLR_E_NULL_REFERENCE = true) by reflexivity.
  assert (Hst : status (NativeEspTimerCreate___I4 stack_this fresh) = Some S_OK)
    by reflexivity.
  split; [exact Hf |]. split; [exact Hst |].
  exact (proj2 (result_written_iff_S_OK_returned NativeEspTimerCreate___I4
                  stack_this fresh Hf ltac:(nth_member 0)) Hst).
Defined.

End ConcreteShimRuns.
